(** * next-server-action-validation: [withValidation] and [isValidationError]

    A shallow embedding of the two TypeScript source files

      - [src/validation-error.ts]  ([isValidationError])
      - [src/with-validation.ts]   ([withValidation])
      - [src/types.ts]             (the [ValidationError] shape)

    over a small model of JavaScript run-time values.

    Scope of the value model.  [JS.value] holds the data that cross a
    server action boundary: [undefined], [null], booleans, numbers (IEEE
    doubles), bigints, strings, plain objects (ordered own data properties),
    arrays and promises.  Reading a property of such a value runs no code.
    Objects whose property reads do run code (accessor properties, a
    proxy's [get] trap) are added on top of the data values in [Any], where
    the argument of [isValidationError] ranges over all of [obj: any].
    Function values, thenables that are not promises, and members inherited
    from the built-in prototypes (methods such as [toString]) are not
    modelled; none of the built-in prototypes defines a member with one of
    the names the two source files read ([isValidationError], [success],
    [error], [errors], [data]). *)

From Stdlib Require Import String List ZArith Bool.
From Stdlib Require Import Floats Uint63 DecimalString.
Import ListNotations.
Local Open Scope string_scope.
Local Open Scope list_scope.

(* ===================================================================== *)
(** ** Run-time values *)
(* ===================================================================== *)

Module JS.

(** A promise is modelled by its eventual state: fulfilled with a value,
    rejected with a reason, or pending for ever. *)
#[warnings="-register-all"]
Inductive value : Type :=
| VUndefined
| VNull
| VBool (b : bool)
| VNum (n : float)
| VBigInt (z : Z)
| VStr (s : string)
| VObj (props : list (string * value))
| VArr (elems : list value)
| VPromise (p : settlement)
with settlement : Type :=
| Fulfilled (v : value)
| Rejected (reason : value)
| Pending.

(** The outcome of evaluating an expression or a call: a value, or a
    thrown exception. *)
Inductive completion (A : Type) : Type :=
| Normal (a : A)
| Throw (e : value).
Arguments Normal {A} a.
Arguments Throw {A} e.

(** [ToBoolean]: the falsy values are [undefined], [null], [false], [+0],
    [-0], [NaN], [0n] and the empty string. *)
Definition truthy (v : value) : bool :=
  match v with
  | VUndefined | VNull => false
  | VBool b => b
  | VNum n => negb (PrimFloat.is_zero n || PrimFloat.is_nan n)
  | VBigInt z => negb (Z.eqb z 0)
  | VStr s => negb (String.eqb s "")
  | VObj _ | VArr _ | VPromise _ => true
  end.

(** [v === b] for a boolean [b]: no coercion, so only the boolean [b]
    itself is strictly equal to [b]. *)
Definition strict_equals_bool (v : value) (b : bool) : bool :=
  match v with
  | VBool b' => Bool.eqb b' b
  | _ => false
  end.

(** Own data property of a plain object. *)
Fixpoint lookup_prop (k : string) (props : list (string * value)) : option value :=
  match props with
  | [] => None
  | (k', v) :: rest => if String.eqb k' k then Some v else lookup_prop k rest
  end.

(** A property key is an array index when it is the canonical decimal
    spelling of a natural number. *)
Definition array_index (k : string) : option nat :=
  match NilEmpty.uint_of_string k with
  | Some u =>
      let n := Nat.of_uint u in
      if String.eqb (NilEmpty.string_of_uint (Nat.to_uint n)) k then Some n else None
  | None => None
  end.

Definition number_of_nat (n : nat) : float :=
  PrimFloat.of_uint63 (Uint63.of_Z (Z.of_nat n)).

Definition type_error : value := VObj [("name", VStr "TypeError")].

Definition or_undefined (o : option value) : value :=
  match o with
  | Some v => v
  | None => VUndefined
  end.

(** The property read [o.k].  Reading a property of [undefined] or [null]
    throws a [TypeError]; a missing property reads as [undefined]. *)
Definition get (o : value) (k : string) : completion value :=
  match o with
  | VUndefined | VNull => Throw type_error
  | VBool _ | VNum _ | VBigInt _ | VPromise _ => Normal VUndefined
  | VStr s =>
      if String.eqb k "length" then Normal (VNum (number_of_nat (String.length s)))
      else match array_index k with
           | Some i => Normal (or_undefined
                         (option_map (fun c => VStr (String c EmptyString)) (String.get i s)))
           | None => Normal VUndefined
           end
  | VObj props => Normal (or_undefined (lookup_prop k props))
  | VArr elems =>
      if String.eqb k "length" then Normal (VNum (number_of_nat (List.length elems)))
      else match array_index k with
           | Some i => Normal (or_undefined (nth_error elems i))
           | None => Normal VUndefined
           end
  end.

(** Resolving a promise with [v]: a promise is adopted, any other value
    fulfils. *)
Definition promise_resolve (v : value) : settlement :=
  match v with
  | VPromise p => p
  | _ => Fulfilled v
  end.

Definition is_promise (v : value) : bool :=
  match v with
  | VPromise _ => true
  | _ => false
  end.

(** What [await v] gives its caller once [v] has settled; [None] when it
    never does. *)
Definition await (v : value) : option (completion value) :=
  match promise_resolve v with
  | Fulfilled r => Some (Normal r)
  | Rejected e => Some (Throw e)
  | Pending => None
  end.

End JS.
Import JS.

(* ===================================================================== *)
(** ** Computations: state passing with exceptions *)
(* ===================================================================== *)

(** A computation over a world [W] either returns a value or throws,
    and leaves a new world behind. *)
Definition M (W A : Type) : Type := W -> completion A * W.

Section Monad.
Context {W : Type}.

Definition ret {A} (a : A) : M W A := fun w => (Normal a, w).

Definition bind {A B} (m : M W A) (k : A -> M W B) : M W B :=
  fun w =>
    match m w with
    | (Normal a, w') => k a w'
    | (Throw e, w') => (Throw e, w')
    end.

Definition lift {A} (c : completion A) : M W A := fun w => (c, w).

(** [a && b]: [b] is evaluated only when [a] is truthy, and a falsy [a]
    is itself the result. *)
Definition js_and (a : value) (b : M W value) : M W value :=
  if truthy a then b else ret a.

(** Calling an [async] function whose body contains no [await]: the body
    runs to completion within the call, and the call returns a promise
    resolved with the body's value or rejected with what it threw. *)
Definition async (body : M W value) : M W value :=
  fun w =>
    match body w with
    | (Normal v, w') => (Normal (VPromise (promise_resolve v)), w')
    | (Throw e, w') => (Normal (VPromise (Rejected e)), w')
    end.
End Monad.

Declare Scope js_scope.
Delimit Scope js_scope with js.
Notation "x <- m ;; k" := (bind m (fun x => k))
  (at level 61, m at next level, right associativity) : js_scope.
Local Open Scope js_scope.

(* ===================================================================== *)
(** ** src/validation-error.ts *)
(* ===================================================================== *)

Section ValidationErrorTs.
Context {W : Type}.

(** [return obj && obj.isValidationError === true;] *)
Definition isValidationError (obj : value) : M W value :=
  js_and obj
    (flag <- lift (get obj "isValidationError") ;;
     ret (VBool (strict_equals_bool flag true))).
End ValidationErrorTs.

(** *** The same function on every [obj: any]

    The parameter is typed [any]: besides data it may be an object whose
    property reads run code.  [Exotic read] is such an object (one with
    accessor properties, or a proxy): [read k] is what the read of its
    property [k] does to the state [H], and what it returns or throws. *)
Module Any.

Inductive any (H : Type) : Type :=
| Data (v : value)
| Exotic (read : string -> M H value).
Arguments Data {H} v.
Arguments Exotic {H} read.

Section ValidationErrorTsAny.
Context {H : Type}.

(** Every object is truthy. *)
Definition truthy_any (a : any H) : bool :=
  match a with
  | Data v => truthy v
  | Exotic _ => true
  end.

(** The property read [o.k]: a data read, or the code of the accessor or
    trap. *)
Definition get_any (o : any H) (k : string) : M H value :=
  match o with
  | Data v => lift (get v k)
  | Exotic read => read k
  end.

Definition js_and_any (a : any H) (b : M H (any H)) : M H (any H) :=
  if truthy_any a then b else ret a.

(** [return obj && obj.isValidationError === true;] *)
Definition isValidationError (obj : any H) : M H (any H) :=
  js_and_any obj
    (flag <- get_any obj "isValidationError" ;;
     ret (Data (VBool (strict_equals_bool flag true)))).
End ValidationErrorTsAny.

Definition getter_error : value :=
  VObj [("name", VStr "Error"); ("message", VStr "boom")].

(** [{ get isValidationError() { throw new Error("boom") } }] *)
Definition throwing_getter : any nat :=
  Exotic (fun k n =>
            if String.eqb k "isValidationError"
            then (Throw getter_error, n)
            else (Normal VUndefined, n)).

(** [{ get isValidationError() { return ++reads === 1 } }], the state being
    the number of reads so far. *)
Definition counting_getter : any nat :=
  Exotic (fun k n =>
            if String.eqb k "isValidationError"
            then (Normal (VBool (Nat.eqb n 0)), S n)
            else (Normal VUndefined, n)).

End Any.

(* ===================================================================== *)
(** ** src/types.ts *)
(* ===================================================================== *)

(** [type ValidationError = { isValidationError: boolean; errors: ZodIssue[] }]:
    the outer shape of the type, as a check on a run-time value: a boolean
    flag and an array.  The elements of the array are not looked at, so this
    is a necessary condition only; a value that fails it does not have the
    type.  [ValidationError_type] below is the type itself. *)
Definition has_type_ValidationError (v : value) : bool :=
  match v with
  | VObj props =>
      match lookup_prop "isValidationError" props, lookup_prop "errors" props with
      | Some (VBool _), Some (VArr _) => true
      | _, _ => false
      end
  | _ => false
  end.

Section ValidationErrorType.
(** [ZodIssue] is declared by zod, outside this repository: membership in
    it is taken as a parameter. *)
Variable is_ZodIssue : value -> bool.

(** [type ValidationError = { isValidationError: boolean; errors: ZodIssue[] }] *)
Definition ValidationError_type (v : value) : bool :=
  match v with
  | VObj props =>
      match lookup_prop "isValidationError" props, lookup_prop "errors" props with
      | Some (VBool _), Some (VArr elems) => forallb is_ZodIssue elems
      | _, _ => false
      end
  | _ => false
  end.
End ValidationErrorType.

(* ===================================================================== *)
(** ** The collaborators: the zod schema and the target operation *)
(* ===================================================================== *)

(** The schema is an external collaborator and is taken as a parameter.
    Only the shape of what [safeParse] returns is fixed, as zod 3 documents
    it: [{ success: true, data }] or [{ success: false, error }], where
    [error] is a [ZodError] whose [errors] member reads its issue list. *)
Module Zod.

Definition ZodIssue : Type := value.

Record ZodError : Type := { issues : list ZodIssue }.

Inductive SafeParseReturnType : Type :=
| SafeParseSuccess (data : value)
| SafeParseError (error : ZodError).

Definition ZodError_value (e : ZodError) : value :=
  VObj [("name", VStr "ZodError");
        ("issues", VArr (issues e));
        ("errors", VArr (issues e))].

Definition SafeParseReturnType_value (r : SafeParseReturnType) : value :=
  match r with
  | SafeParseSuccess data => VObj [("success", VBool true); ("data", data)]
  | SafeParseError error => VObj [("success", VBool false); ("error", ZodError_value error)]
  end.

(** [schema.safeParse(data)] may read and change the collaborators' state
    [St], returns a result, or throws when the validator itself fails. *)
Record ZodSchema (St : Type) : Type :=
  { safeParse : value -> St -> completion SafeParseReturnType * St }.
Arguments safeParse {St} _ _ _.

End Zod.
Import Zod.

(** The calls the wrapper makes to its collaborators, in order. *)
Inductive event : Type :=
| SafeParseCalled (data : value)
| FuncCalled (arg : value).

Record world (St : Type) : Type :=
  { calls : list event;
    store : St }.
Arguments calls {St} _.
Arguments store {St} _.
Arguments Build_world {St} _ _.

(** The arguments the target operation was invoked with, oldest first. *)
Fixpoint func_calls (t : list event) : list value :=
  match t with
  | [] => []
  | FuncCalled arg :: rest => arg :: func_calls rest
  | SafeParseCalled _ :: rest => func_calls rest
  end.

(* ===================================================================== *)
(** ** src/with-validation.ts *)
(* ===================================================================== *)

Section WithValidationTs.
Context {St : Type}.

(** [F extends (_data: T) => any]: the target operation returns a value
    (possibly a promise) or throws, and may change the state. *)
Definition F : Type := value -> St -> completion value * St.

Definition call_safeParse (schema : ZodSchema St) (data : value) : M (world St) value :=
  fun w =>
    let (r, s) := safeParse schema data (store w) in
    let w' := Build_world (calls w ++ [SafeParseCalled data]) s in
    match r with
    | Normal res => (Normal (SafeParseReturnType_value res), w')
    | Throw e => (Throw e, w')
    end.

Definition call_func (func : F) (arg : value) : M (world St) value :=
  fun w =>
    let (r, s) := func arg (store w) in
    (r, Build_world (calls w ++ [FuncCalled arg]) s).

(** The operation returned by [withValidation(schema, func)]:
<<
    async (data: any) => {
        const zodValidationResult = schema.safeParse(data);
        if (!zodValidationResult.success) {
            return <ValidationError>{
                isValidationError: true,
                errors: zodValidationResult.error.errors
            };
        }
        return func(zodValidationResult.data);
    }
>> *)
Definition withValidation (schema : ZodSchema St) (func : F)
  : value -> M (world St) value :=
  fun data =>
    async
      (zodValidationResult <- call_safeParse schema data ;;
       success <- lift (get zodValidationResult "success") ;;
       if negb (truthy success) then
         error <- lift (get zodValidationResult "error") ;;
         errors <- lift (get error "errors") ;;
         ret (VObj [("isValidationError", VBool true); ("errors", errors)])
       else
         validated <- lift (get zodValidationResult "data") ;;
         call_func func validated).
End WithValidationTs.

(* ===================================================================== *)
(** ** Closed instances, after the README's example *)
(* ===================================================================== *)

Module Readme.

(** The state of the example: what the action has written to its log. *)
Definition St : Type := list value.

Definition too_small : ZodIssue :=
  VObj [("code", VStr "too_small");
        ("path", VArr [VStr "name"]);
        ("message", VStr "String must contain at least 4 character(s)")].

Definition invalid_type : ZodIssue :=
  VObj [("code", VStr "invalid_type");
        ("path", VArr [VStr "name"]);
        ("message", VStr "Expected string")].

(** A stand-in for [z.object({ name: z.string().min(4) })], for the closed
    instances below; it is not zod's implementation.  Unknown keys are
    stripped from the output.  It agrees with zod on objects whose [name]
    is an ASCII string (lengths are counted in bytes here), and its issues
    carry only three of the fields zod reports. *)
Definition myServerActionSchema : ZodSchema St :=
  {| safeParse := fun data s =>
       match get data "name" with
       | Normal (VStr name) =>
           if Nat.leb 4 (String.length name)
           then (Normal (SafeParseSuccess (VObj [("name", VStr name)])), s)
           else (Normal (SafeParseError {| issues := [too_small] |}), s)
       | _ => (Normal (SafeParseError {| issues := [invalid_type] |}), s)
       end |}.

(** [async (data) => { console.log(data); return true; }] *)
Definition myServerAction : @F St :=
  fun data s => (Normal (VPromise (Fulfilled (VBool true))), s ++ [data]).

(** A synchronous target operation: [(data) => data.name]. *)
Definition syncAction : @F St :=
  fun data s => (get data "name", s).

Definition async_refinement_error : value :=
  VObj [("name", VStr "Error");
        ("message", VStr "Async refinement encountered during synchronous parse operation")].

(** A schema whose [safeParse] itself throws. *)
Definition brokenSchema : ZodSchema St :=
  {| safeParse := fun _ s => (Throw async_refinement_error, s) |}.

Definition w0 : world St := Build_world [] [].

Definition short_input : value := VObj [("name", VStr "abc")].
Definition long_input : value := VObj [("name", VStr "abcd"); ("extra", VNull)].

End Readme.

(* ===================================================================== *)
(** ** The caller: page.tsx of the README *)
(* ===================================================================== *)

Section AsyncAwait.
Context {W : Type}.

(** Calling an [async] function whose body is [const r = await first; rest]:
    a rejection of the awaited promise rejects the call's promise, a promise
    that never settles leaves it pending, and otherwise the rest of the body
    runs on the awaited value. *)
Definition async_await (first : M W value) (rest : value -> M W value) : M W value :=
  fun w =>
    match first w with
    | (Throw e, w') => (Normal (VPromise (Rejected e)), w')
    | (Normal v, w') =>
        match await v with
        | Some (Normal r) => async (rest r) w'
        | Some (Throw e) => (Normal (VPromise (Rejected e)), w')
        | None => (Normal (VPromise Pending), w')
        end
    end.
End AsyncAwait.

Section PageTsx.
Context {St : Type}.

(** What [console.log(v)] does to the state. *)
Variable console_log : value -> St -> St.

(** The server action the page imports. *)
Variable myServerAction : value -> M (world St) value.

Definition log (v : value) : M (world St) value :=
  fun w => (Normal VUndefined, Build_world (calls w) (console_log v (store w))).

(** The handler of the README's client component:
<<
    async function handleSave() {
      const result = await myServerAction({ name: myString });
      if (isValidationError(result)) {
        console.log(result.errors);
        return;
      }
      console.log('We passed correct data!');
    }
>> *)
Definition handleSave (myString : string) : M (world St) value :=
  async_await
    (myServerAction (VObj [("name", VStr myString)]))
    (fun result =>
       failed <- isValidationError result ;;
       if truthy failed then
         errors <- lift (get result "errors") ;;
         _ <- log errors ;;
         ret VUndefined
       else
         _ <- log (VStr "We passed correct data!") ;;
         ret VUndefined).
End PageTsx.

Module Page.

(** [console.log] appends to the log of the README's example. *)
Definition console_log (v : value) (s : Readme.St) : Readme.St := s ++ [v].

(** A target operation whose legitimate result has the shape of a
    validation error. *)
Definition flaggedAction : @F Readme.St :=
  fun _ s => (Normal (VObj [("isValidationError", VBool true); ("errors", VArr [])]), s).

Definition action_error : value :=
  VObj [("name", VStr "Error"); ("message", VStr "database unavailable")].

(** A target operation that throws after writing to the log. *)
Definition failingAction : @F Readme.St :=
  fun data s => (Throw action_error, s ++ [data]).

(** A minimal reading of [ZodIssue]: a [path] array and a [message]
    string. *)
Definition is_issue (v : value) : bool :=
  match get v "path", get v "message" with
  | Normal (VArr _), Normal (VStr _) => true
  | _, _ => false
  end.

End Page.

(* ===================================================================== *)
(** ** Basic facts about the value model *)
(* ===================================================================== *)

Lemma get_truthy_normal (obj : value) (k : string) :
  truthy obj = true -> exists v, get obj k = Normal v.
Proof.
  destruct obj; simpl; try discriminate; intros _; eauto.
  - destruct (String.eqb k "length"); eauto.
    destruct (array_index k); eauto.
  - destruct (String.eqb k "length"); eauto.
    destruct (array_index k); eauto.
Qed.

Lemma strict_equals_bool_true (v : value) :
  strict_equals_bool v true = true <-> v = VBool true.
Proof.
  split.
  - destruct v as [| |[|]| | | | | |]; simpl; intros H; try discriminate; reflexivity.
  - intros ->. reflexivity.
Qed.

(** Only a plain object has an [isValidationError] property that reads as
    a boolean. *)
Lemma get_flag_inv (obj : value) (b : bool) :
  get obj "isValidationError" = Normal (VBool b) ->
  exists props,
    obj = VObj props /\ lookup_prop "isValidationError" props = Some (VBool b).
Proof.
  destruct obj; simpl; try discriminate.
  intros H. exists props. split; [reflexivity|].
  destruct (lookup_prop "isValidationError" props); simpl in H.
  - inversion H. reflexivity.
  - discriminate H.
Qed.

Lemma await_promise (p : settlement) :
  await (VPromise p) =
  match p with
  | Fulfilled r => Some (Normal r)
  | Rejected e => Some (Throw e)
  | Pending => None
  end.
Proof. reflexivity. Qed.

(* ===================================================================== *)
(** ** The error predicate *)
(* ===================================================================== *)

Section IsValidationErrorFacts.
Context {W : Type}.
Implicit Types (obj : value) (w : W).

(** A falsy argument short-circuits [&&] and is returned as it is. *)
Lemma isValidationError_falsy obj w :
  truthy obj = false -> isValidationError obj w = (Normal obj, w).
Proof.
  intros H. unfold isValidationError, js_and. rewrite H. reflexivity.
Qed.

(** On a truthy argument the result is the boolean of the comparison. *)
Lemma isValidationError_truthy obj w :
  truthy obj = true ->
  exists flag, get obj "isValidationError" = Normal flag /\
    isValidationError obj w = (Normal (VBool (strict_equals_bool flag true)), w).
Proof.
  intros H. destruct (get_truthy_normal obj "isValidationError" H) as [flag Hg].
  exists flag. split; [exact Hg|].
  unfold isValidationError, js_and, bind, lift, ret. rewrite H, Hg. reflexivity.
Qed.

(** When the predicate answers [true]. *)
Lemma isValidationError_true_iff obj w :
  isValidationError obj w = (Normal (VBool true), w) <->
  truthy obj = true /\ get obj "isValidationError" = Normal (VBool true).
Proof.
  split.
  - intros H. destruct (truthy obj) eqn:Ht.
    + split; [reflexivity|].
      destruct (isValidationError_truthy obj w Ht) as (flag & Hg & He).
      rewrite He in H. inversion H as [Hs].
      apply strict_equals_bool_true in Hs. subst flag. exact Hg.
    + rewrite (isValidationError_falsy obj w Ht) in H.
      inversion H. subst obj. discriminate Ht.
  - intros [Ht Hg].
    destruct (isValidationError_truthy obj w Ht) as (flag & Hg' & He).
    rewrite Hg in Hg'. inversion Hg'. subst flag. exact He.
Qed.

(** The state is never touched, whatever the result. *)
Lemma isValidationError_snd obj w : snd (isValidationError obj w) = w.
Proof.
  destruct (truthy obj) eqn:Ht.
  - destruct (isValidationError_truthy obj w Ht) as (flag & _ & He).
    rewrite He. reflexivity.
  - rewrite (isValidationError_falsy obj w Ht). reflexivity.
Qed.

End IsValidationErrorFacts.

(** C3.  [isValidationError(null)] evaluates to [null], and likewise
    [undefined], [0], [NaN], [0n] and the empty string are returned as they
    are: for a falsy argument the result is the argument, not the boolean
    [false]. *)
Theorem isValidationError_falsy_not_boolean (W : Type) (w : W) :
  isValidationError VNull w = (Normal VNull, w) /\
  isValidationError VUndefined w = (Normal VUndefined, w) /\
  isValidationError (VNum 0%float) w = (Normal (VNum 0%float), w) /\
  isValidationError (VNum nan) w = (Normal (VNum nan), w) /\
  isValidationError (VBigInt 0) w = (Normal (VBigInt 0), w) /\
  isValidationError (VStr "") w = (Normal (VStr ""), w).
Proof. repeat split. Qed.

(** On data values the evaluation completes normally and leaves the state
    as it found it: the [obj &&] guard keeps the read away from [undefined]
    and [null], and a data read runs no code. *)
Lemma isValidationError_total (W : Type) (obj : value) (w : W) :
  exists r, isValidationError obj w = (Normal r, w).
Proof.
  destruct (truthy obj) eqn:Ht.
  - destruct (isValidationError_truthy obj w Ht) as (flag & _ & He). eauto.
  - exists obj. apply isValidationError_falsy. exact Ht.
Qed.

(** C5.  The predicate is structural: [{ isValidationError: true, errors: [] }]
    written by hand is classified [true], and every value classified
    [true] is an object whose [isValidationError] property is the boolean
    [true]. *)
Theorem isValidationError_structural (W : Type) (w : W) :
  isValidationError (VObj [("isValidationError", VBool true); ("errors", VArr [])]) w
    = (Normal (VBool true), w)
  /\
  forall obj w',
    isValidationError obj w = (Normal (VBool true), w') ->
    exists props,
      obj = VObj props /\ lookup_prop "isValidationError" props = Some (VBool true).
Proof.
  split; [reflexivity|].
  intros obj w' H.
  assert (Hw : w' = w).
  { rewrite <- (isValidationError_snd obj w). rewrite H. reflexivity. }
  subst w'. apply isValidationError_true_iff in H. destruct H as [_ Hg].
  exact (get_flag_inv obj true Hg).
Qed.

(** On data values the result does not depend on the state. *)
Lemma isValidationError_deterministic
  (W1 W2 : Type) (obj : value) (w1 : W1) (w2 : W2) :
  fst (isValidationError obj w1) = fst (isValidationError obj w2) /\
  snd (isValidationError obj w1) = w1 /\
  snd (isValidationError obj w2) = w2.
Proof.
  split; [|split; apply isValidationError_snd].
  destruct (truthy obj) eqn:Ht.
  - destruct (isValidationError_truthy obj w1 Ht) as (f1 & Hg1 & He1).
    destruct (isValidationError_truthy obj w2 Ht) as (f2 & Hg2 & He2).
    rewrite He1, He2. simpl. rewrite Hg1 in Hg2. inversion Hg2. reflexivity.
  - rewrite (isValidationError_falsy obj w1 Ht), (isValidationError_falsy obj w2 Ht).
    reflexivity.
Qed.

(** C10.  Only the [isValidationError] property is read: a truthy value
    whose [isValidationError] reads as [true] is classified [true] whatever
    else it holds, and two truthy values that agree on that property are
    classified alike. *)
Theorem isValidationError_reads_only_flag (W : Type) (w : W) (obj : value) :
  truthy obj = true ->
  (get obj "isValidationError" = Normal (VBool true) ->
   isValidationError obj w = (Normal (VBool true), w))
  /\
  (forall obj',
     truthy obj' = true ->
     get obj' "isValidationError" = get obj "isValidationError" ->
     isValidationError obj' w = isValidationError obj w).
Proof.
  intros Ht. split.
  - intros Hg. apply isValidationError_true_iff. split; assumption.
  - intros obj' Ht' Hg.
    destruct (isValidationError_truthy obj w Ht) as (f1 & Hg1 & He1).
    destruct (isValidationError_truthy obj' w Ht') as (f2 & Hg2 & He2).
    rewrite He1, He2. rewrite Hg, Hg1 in Hg2. inversion Hg2. reflexivity.
Qed.

(* ===================================================================== *)
(** ** The validating dispatcher *)
(* ===================================================================== *)

Section WithValidationFacts.
Context {St : Type}.
Variable schema : ZodSchema St.
Variable func : @F St.
Implicit Types (data validated : value) (w : world St) (s : St).

Ltac run_wrapper H :=
  unfold withValidation, async, bind, call_safeParse, call_func, lift, ret;
  rewrite H; simpl.

(** Validation failed: the call returns a promise fulfilled with the
    validation error, and [func] is not called. *)
Lemma withValidation_failure data w error s :
  safeParse schema data (store w) = (Normal (SafeParseError error), s) ->
  withValidation schema func data w =
  (Normal (VPromise (Fulfilled
     (VObj [("isValidationError", VBool true); ("errors", VArr (issues error))]))),
   Build_world (calls w ++ [SafeParseCalled data]) s).
Proof. intros H. run_wrapper H. reflexivity. Qed.

(** Validation succeeded: [func] is called on the validated data and the
    returned promise is resolved with what the call gives. *)
Lemma withValidation_success data w validated s :
  safeParse schema data (store w) = (Normal (SafeParseSuccess validated), s) ->
  withValidation schema func data w =
  (match fst (func validated s) with
   | Normal v => Normal (VPromise (promise_resolve v))
   | Throw e => Normal (VPromise (Rejected e))
   end,
   Build_world ((calls w ++ [SafeParseCalled data]) ++ [FuncCalled validated])
               (snd (func validated s))).
Proof.
  intros H. run_wrapper H. destruct (func validated s) as [[v|e] s']; reflexivity.
Qed.

(** The validator threw: the returned promise is rejected with what it
    threw, and [func] is not called. *)
Lemma withValidation_fault data w e s :
  safeParse schema data (store w) = (Throw e, s) ->
  withValidation schema func data w =
  (Normal (VPromise (Rejected e)),
   Build_world (calls w ++ [SafeParseCalled data]) s).
Proof. intros H. run_wrapper H. reflexivity. Qed.

Lemma func_calls_app (t u : list event) :
  func_calls (t ++ u) = func_calls t ++ func_calls u.
Proof.
  induction t as [|[d|a] t IH]; simpl; [reflexivity|exact IH|].
  rewrite IH. reflexivity.
Qed.

(** C1.  When the schema rejects [data], the wrapped call never invokes
    [func] (no call is recorded and the state is the one the validator
    left), and it resolves to a value [v] whose [isValidationError] is
    [true] and whose [errors] is the validator's issue list, in order. *)
Theorem withValidation_invalid_input data w error s :
  safeParse schema data (store w) = (Normal (SafeParseError error), s) ->
  exists p w',
    withValidation schema func data w = (Normal p, w') /\
    calls w' = calls w ++ [SafeParseCalled data] /\
    func_calls (calls w') = func_calls (calls w) /\
    store w' = s /\
    exists v,
      await p = Some (Normal v) /\
      get v "isValidationError" = Normal (VBool true) /\
      get v "errors" = Normal (VArr (issues error)).
Proof.
  intros H. rewrite (withValidation_failure data w error s H).
  eexists. eexists. split; [reflexivity|]. simpl.
  split; [reflexivity|]. split.
  - rewrite func_calls_app. simpl. apply app_nil_r.
  - split; [reflexivity|]. eexists. split; [reflexivity|].
    split; reflexivity.
Qed.

(** C2.  When the schema accepts [data] with validated output [validated],
    the wrapped call invokes [func] exactly once, on [validated], and
    resolves to exactly what [func] returned or resolves to. *)
Theorem withValidation_valid_input data w validated s r s' :
  safeParse schema data (store w) = (Normal (SafeParseSuccess validated), s) ->
  func validated s = (Normal r, s') ->
  exists p w',
    withValidation schema func data w = (Normal p, w') /\
    calls w' = calls w ++ [SafeParseCalled data; FuncCalled validated] /\
    func_calls (calls w') = func_calls (calls w) ++ [validated] /\
    store w' = s' /\
    await p = await r /\
    (is_promise r = false -> await p = Some (Normal r)).
Proof.
  intros H Hf. rewrite (withValidation_success data w validated s H), Hf.
  eexists. eexists. split; [reflexivity|]. simpl.
  split; [rewrite <- app_assoc; reflexivity|]. split.
  - rewrite !func_calls_app. simpl. rewrite app_nil_r. reflexivity.
  - split; [reflexivity|]. split.
    + unfold await. destruct r; reflexivity.
    + unfold await. destruct r; simpl; intros Hp; try reflexivity. discriminate Hp.
Qed.

(** C6.  Whatever the input, the wrapped call itself completes normally
    with a promise, and everything it has to deliver comes through that
    promise: the validation error fulfils it when the schema rejects the
    input; what the target operation returned resolves it when the schema
    accepts, a synchronous result fulfilling it as it is; and what the
    validator or the target operation threw rejects it. *)
Theorem withValidation_delivers_through_promise data w :
  exists p w',
    withValidation schema func data w = (Normal (VPromise p), w') /\
    ((exists error s,
        safeParse schema data (store w) = (Normal (SafeParseError error), s) /\
        p = Fulfilled
              (VObj [("isValidationError", VBool true); ("errors", VArr (issues error))]))
     \/
     (exists validated s r,
        safeParse schema data (store w) = (Normal (SafeParseSuccess validated), s) /\
        fst (func validated s) = Normal r /\
        await (VPromise p) = await r /\
        (is_promise r = false -> p = Fulfilled r))
     \/
     (exists e,
        p = Rejected e /\
        ((exists s, safeParse schema data (store w) = (Throw e, s)) \/
         (exists validated s,
            safeParse schema data (store w) = (Normal (SafeParseSuccess validated), s) /\
            fst (func validated s) = Throw e)))).
Proof.
  destruct (safeParse schema data (store w)) as [[[validated|error]|e] s] eqn:H.
  - rewrite (withValidation_success data w validated s H).
    destruct (fst (func validated s)) as [r|e] eqn:Hf.
    + eexists. eexists. split; [reflexivity|]. right. left.
      exists validated, s, r. split; [reflexivity|]. split; [exact Hf|]. split.
      * reflexivity.
      * destruct r; simpl; intros Hp; try reflexivity. discriminate Hp.
    + eexists. eexists. split; [reflexivity|]. right. right.
      exists e. split; [reflexivity|]. right.
      exists validated, s. split; [reflexivity | exact Hf].
  - rewrite (withValidation_failure data w error s H).
    eexists. eexists. split; [reflexivity|]. left.
    exists error, s. split; reflexivity.
  - rewrite (withValidation_fault data w e s H).
    eexists. eexists. split; [reflexivity|]. right. right.
    exists e. split; [reflexivity|]. left. exists s. reflexivity.
Qed.

(** C7.  A fault thrown by the validator is not caught or translated: the
    wrapped call's promise is rejected with that very fault and [func] is
    not called.  The wrapper adds no fault of its own: whenever its promise
    is rejected, the reason was thrown by the validator, or thrown by
    [func], or is the reason of the rejected promise [func] returned. *)
Theorem withValidation_validator_fault data w :
  (forall e s,
     safeParse schema data (store w) = (Throw e, s) ->
     exists p w',
       withValidation schema func data w = (Normal p, w') /\
       await p = Some (Throw e) /\
       calls w' = calls w ++ [SafeParseCalled data] /\
       store w' = s)
  /\
  (forall e w',
     withValidation schema func data w = (Normal (VPromise (Rejected e)), w') ->
     (exists s, safeParse schema data (store w) = (Throw e, s)) \/
     (exists validated s,
        safeParse schema data (store w) = (Normal (SafeParseSuccess validated), s) /\
        (fst (func validated s) = Throw e \/
         fst (func validated s) = Normal (VPromise (Rejected e))))).
Proof.
  split.
  - intros e s H. rewrite (withValidation_fault data w e s H).
    eexists. eexists. repeat split.
  - intros e w' Hr.
    destruct (safeParse schema data (store w)) as [[[validated|error]|e0] s] eqn:H.
    + right. exists validated, s. split; [reflexivity|].
      rewrite (withValidation_success data w validated s H) in Hr.
      destruct (fst (func validated s)) as [v|e1].
      * right. inversion Hr as [[Hp Hw]].
        destruct v; simpl in Hp; try discriminate Hp. subst p. reflexivity.
      * left. inversion Hr. reflexivity.
    + rewrite (withValidation_failure data w error s H) in Hr. discriminate Hr.
    + left. exists s.
      rewrite (withValidation_fault data w e0 s H) in Hr.
      inversion Hr. reflexivity.
Qed.

(** C9.  Construction followed by classification: when the schema rejects
    [data], the value the wrapped call resolves to is classified [true] by
    [isValidationError]. *)
Theorem withValidation_error_is_classified data w error s :
  safeParse schema data (store w) = (Normal (SafeParseError error), s) ->
  exists p w' v,
    withValidation schema func data w = (Normal p, w') /\
    await p = Some (Normal v) /\
    forall (W : Type) (u : W), isValidationError v u = (Normal (VBool true), u).
Proof.
  intros H. rewrite (withValidation_failure data w error s H).
  eexists. eexists. eexists. split; [reflexivity|]. split; [reflexivity|].
  intros W u. reflexivity.
Qed.

End WithValidationFacts.

(* ===================================================================== *)
(** ** The README's scenario, evaluated *)
(* ===================================================================== *)

Module ReadmeFacts.
Import Readme.

(** [{ name: "abc" }] is rejected: the call resolves to the validation
    error, nothing is logged. *)
Example short_name_rejected :
  withValidation myServerActionSchema myServerAction short_input w0 =
  (Normal (VPromise (Fulfilled
     (VObj [("isValidationError", VBool true); ("errors", VArr [too_small])]))),
   Build_world [SafeParseCalled short_input] []).
Proof. reflexivity. Qed.

(** [{ name: "abcd", extra: null }] is accepted: the action sees the
    stripped object and the call resolves to [true]. *)
Example long_name_accepted :
  withValidation myServerActionSchema myServerAction long_input w0 =
  (Normal (VPromise (Fulfilled (VBool true))),
   Build_world [SafeParseCalled long_input; FuncCalled (VObj [("name", VStr "abcd")])]
               [VObj [("name", VStr "abcd")]]).
Proof. reflexivity. Qed.

(** A synchronous target operation is reached through a promise too. *)
Example sync_target_through_promise :
  fst (withValidation myServerActionSchema syncAction long_input w0) =
  Normal (VPromise (Fulfilled (VStr "abcd"))).
Proof. reflexivity. Qed.

(** Numbers, arrays, strings and objects without the flag are classified
    [false]. *)
Example isValidationError_other_values :
  fst (isValidationError (VNum 3%float) tt) = Normal (VBool false) /\
  fst (isValidationError (VArr []) tt) = Normal (VBool false) /\
  fst (isValidationError (VStr "isValidationError") tt) = Normal (VBool false) /\
  fst (isValidationError (VBool true) tt) = Normal (VBool false) /\
  fst (isValidationError (VObj [("isValidationError", VStr "true")]) tt)
    = Normal (VBool false).
Proof. repeat split. Qed.

(** An [errors] field that is not an array does not matter. *)
Example isValidationError_errors_not_a_list :
  has_type_ValidationError (VObj [("isValidationError", VBool true); ("errors", VNum 3%float)])
    = false /\
  fst (isValidationError
         (VObj [("isValidationError", VBool true); ("errors", VNum 3%float)]) tt)
    = Normal (VBool true).
Proof. split; reflexivity. Qed.

End ReadmeFacts.

(* ===================================================================== *)
(** ** Closed instances of the theorems that carry hypotheses *)
(* ===================================================================== *)

Lemma withValidation_invalid_input_witness :
  safeParse Readme.myServerActionSchema Readme.short_input (store Readme.w0)
    = (Normal (SafeParseError {| issues := [Readme.too_small] |}), []) /\
  exists p w',
    withValidation Readme.myServerActionSchema Readme.myServerAction
                   Readme.short_input Readme.w0 = (Normal p, w') /\
    calls w' = calls Readme.w0 ++ [SafeParseCalled Readme.short_input] /\
    func_calls (calls w') = func_calls (calls Readme.w0) /\
    store w' = [] /\
    exists v,
      await p = Some (Normal v) /\
      get v "isValidationError" = Normal (VBool true) /\
      get v "errors" = Normal (VArr [Readme.too_small]).
Proof.
  split; [reflexivity|].
  exact (withValidation_invalid_input
           Readme.myServerActionSchema Readme.myServerAction
           Readme.short_input Readme.w0
           {| issues := [Readme.too_small] |} [] eq_refl).
Defined.

Lemma withValidation_valid_input_witness :
  exists p w',
    withValidation Readme.myServerActionSchema Readme.myServerAction
                   Readme.long_input Readme.w0 = (Normal p, w') /\
    calls w' = calls Readme.w0 ++
               [SafeParseCalled Readme.long_input;
                FuncCalled (VObj [("name", VStr "abcd")])] /\
    func_calls (calls w') = func_calls (calls Readme.w0) ++ [VObj [("name", VStr "abcd")]] /\
    store w' = [VObj [("name", VStr "abcd")]] /\
    await p = await (VPromise (Fulfilled (VBool true))) /\
    (is_promise (VPromise (Fulfilled (VBool true))) = false ->
     await p = Some (Normal (VPromise (Fulfilled (VBool true))))).
Proof.
  exact (withValidation_valid_input
           Readme.myServerActionSchema Readme.myServerAction
           Readme.long_input Readme.w0
           (VObj [("name", VStr "abcd")]) []
           (VPromise (Fulfilled (VBool true))) [VObj [("name", VStr "abcd")]]
           eq_refl eq_refl).
Defined.

Lemma withValidation_validator_fault_witness :
  exists p w',
    withValidation Readme.brokenSchema Readme.syncAction
                   Readme.long_input Readme.w0 = (Normal p, w') /\
    await p = Some (Throw Readme.async_refinement_error) /\
    calls w' = calls Readme.w0 ++ [SafeParseCalled Readme.long_input] /\
    store w' = [].
Proof.
  exact (proj1 (withValidation_validator_fault
                  Readme.brokenSchema Readme.syncAction Readme.long_input Readme.w0)
               Readme.async_refinement_error [] eq_refl).
Defined.

Lemma withValidation_error_is_classified_witness :
  exists p w' v,
    withValidation Readme.myServerActionSchema Readme.myServerAction
                   Readme.short_input Readme.w0 = (Normal p, w') /\
    await p = Some (Normal v) /\
    forall (W : Type) (u : W), isValidationError v u = (Normal (VBool true), u).
Proof.
  exact (withValidation_error_is_classified
           Readme.myServerActionSchema Readme.myServerAction
           Readme.short_input Readme.w0
           {| issues := [Readme.too_small] |} [] eq_refl).
Defined.

Lemma isValidationError_structural_witness :
  exists props,
    VObj [("isValidationError", VBool true); ("errors", VArr [])] = VObj props /\
    lookup_prop "isValidationError" props = Some (VBool true).
Proof.
  exact (proj2 (isValidationError_structural unit tt)
               (VObj [("isValidationError", VBool true); ("errors", VArr [])]) tt
               eq_refl).
Defined.

Lemma isValidationError_reads_only_flag_witness :
  has_type_ValidationError (VObj [("isValidationError", VBool true)]) = false /\
  isValidationError (VObj [("isValidationError", VBool true)]) tt
    = (Normal (VBool true), tt) /\
  isValidationError (VObj [("errors", VStr "none"); ("isValidationError", VBool true)]) tt
    = isValidationError (VObj [("isValidationError", VBool true)]) tt.
Proof.
  split; [reflexivity|]. split.
  - exact (proj1 (isValidationError_reads_only_flag
                    unit tt (VObj [("isValidationError", VBool true)]) eq_refl)
                 eq_refl).
  - exact (proj2 (isValidationError_reads_only_flag
                    unit tt (VObj [("isValidationError", VBool true)]) eq_refl)
                 (VObj [("errors", VStr "none"); ("isValidationError", VBool true)])
                 eq_refl eq_refl).
Defined.

(* ===================================================================== *)
(** ** The error predicate used as a condition *)
(* ===================================================================== *)

Lemma await_resolve (r : value) : await (VPromise (promise_resolve r)) = await r.
Proof. reflexivity. Qed.

Section PredicateAsCondition.
Context {W : Type}.
Implicit Types (obj : value) (w : W).

(** Without the flag the result is falsy, be it [false] or the falsy
    argument itself. *)
Lemma isValidationError_unflagged obj w :
  get obj "isValidationError" <> Normal (VBool true) ->
  exists r, isValidationError obj w = (Normal r, w) /\ truthy r = false.
Proof.
  intros Hn. destruct (truthy obj) eqn:Ht.
  - destruct (isValidationError_truthy obj w Ht) as (flag & Hg & He).
    eexists. split; [exact He|]. simpl.
    destruct (strict_equals_bool flag true) eqn:Hs; [|reflexivity].
    apply strict_equals_bool_true in Hs. subst flag. contradiction.
  - exists obj. split; [apply isValidationError_falsy; exact Ht | exact Ht].
Qed.

(** X1.  In a condition the predicate is exact even where its result is
    not a boolean: the result is truthy precisely when the argument is
    truthy and its [isValidationError] property is the boolean [true], and
    a truthy result is the boolean [true]. *)
Theorem isValidationError_condition obj w :
  exists r,
    isValidationError obj w = (Normal r, w) /\
    (truthy r = true <->
     truthy obj = true /\ get obj "isValidationError" = Normal (VBool true)) /\
    (truthy r = true <-> r = VBool true).
Proof.
  destruct (truthy obj) eqn:Ht.
  - destruct (isValidationError_truthy obj w Ht) as (flag & Hg & He).
    eexists. split; [exact He|]. simpl. split.
    + rewrite strict_equals_bool_true. split.
      * intros ->. split; [reflexivity | exact Hg].
      * intros [_ Hg']. rewrite Hg in Hg'. inversion Hg'. reflexivity.
    + split.
      * intros ->. reflexivity.
      * intros H. injection H as H'. exact H'.
  - exists obj. split; [apply isValidationError_falsy; exact Ht|].
    rewrite Ht. split.
    + split; [discriminate | intros [H _]; discriminate H].
    + split; [discriminate | intros ->; discriminate Ht].
Qed.

(** X2.  The exact shape of the result: on a truthy argument it is a
    boolean, [true] precisely when the property reads as the boolean
    [true] (a string ["true"] or a number does not count); on a falsy
    argument it is the argument. *)
Theorem isValidationError_result_shape obj w :
  (truthy obj = true /\
   exists b,
     isValidationError obj w = (Normal (VBool b), w) /\
     (b = true <-> get obj "isValidationError" = Normal (VBool true)))
  \/
  (truthy obj = false /\ isValidationError obj w = (Normal obj, w)).
Proof.
  destruct (truthy obj) eqn:Ht.
  - left. split; [reflexivity|].
    destruct (isValidationError_truthy obj w Ht) as (flag & Hg & He).
    eexists. split; [exact He|].
    rewrite strict_equals_bool_true, Hg. split.
    + intros ->. reflexivity.
    + intros H. inversion H. reflexivity.
  - right. split; [reflexivity | apply isValidationError_falsy; exact Ht].
Qed.

End PredicateAsCondition.

(* ===================================================================== *)
(** ** More on the validating dispatcher *)
(* ===================================================================== *)

Section WithValidationMore.
Context {St : Type}.
Variable schema : ZodSchema St.
Variable func : @F St.
Implicit Types (data validated : value) (w : world St) (s : St).

(** X3.  A result of the target operation that does not carry the flag
    is never taken for a validation error: after a successful validation
    the caller's test on the resolved value is falsy. *)
Theorem withValidation_result_not_classified data w validated s r s' v :
  safeParse schema data (store w) = (Normal (SafeParseSuccess validated), s) ->
  func validated s = (Normal r, s') ->
  await r = Some (Normal v) ->
  get v "isValidationError" <> Normal (VBool true) ->
  exists p w',
    withValidation schema func data w = (Normal p, w') /\
    await p = Some (Normal v) /\
    forall (W : Type) (u : W),
      exists c, isValidationError v u = (Normal c, u) /\ truthy c = false.
Proof.
  intros H Hf Ha Hn. rewrite (withValidation_success schema func data w validated s H), Hf.
  simpl. eexists. eexists. split; [reflexivity|]. split.
  - rewrite await_resolve. exact Ha.
  - intros W u. apply isValidationError_unflagged. exact Hn.
Qed.

(** X4.  The wrapper does not tell a validation error from a target
    operation result of the same shape: when validation succeeds and the
    target operation, which did run, resolves to a truthy value whose
    [isValidationError] is [true], the predicate answers [true] on what the
    wrapped call resolves to. *)
Theorem withValidation_result_misclassified data w validated s r s' v :
  safeParse schema data (store w) = (Normal (SafeParseSuccess validated), s) ->
  func validated s = (Normal r, s') ->
  await r = Some (Normal v) ->
  truthy v = true ->
  get v "isValidationError" = Normal (VBool true) ->
  exists p w',
    withValidation schema func data w = (Normal p, w') /\
    await p = Some (Normal v) /\
    func_calls (calls w') = func_calls (calls w) ++ [validated] /\
    forall (W : Type) (u : W), isValidationError v u = (Normal (VBool true), u).
Proof.
  intros H Hf Ha Ht Hg. rewrite (withValidation_success schema func data w validated s H), Hf.
  simpl. eexists. eexists. split; [reflexivity|]. split; [|split].
  - rewrite await_resolve. exact Ha.
  - simpl. rewrite !func_calls_app. simpl. rewrite app_nil_r. reflexivity.
  - intros W u. apply isValidationError_true_iff. split; assumption.
Qed.

(** X5.  A failure of the target operation passes through untouched: when
    validation succeeds and [func] throws [e], or returns a promise rejected
    with [e], the wrapped call's promise is rejected with [e]; [func] was
    called once and its effects on the state stay. *)
Theorem withValidation_func_fault data w validated s e :
  safeParse schema data (store w) = (Normal (SafeParseSuccess validated), s) ->
  fst (func validated s) = Throw e \/
  fst (func validated s) = Normal (VPromise (Rejected e)) ->
  exists p w',
    withValidation schema func data w = (Normal p, w') /\
    await p = Some (Throw e) /\
    calls w' = calls w ++ [SafeParseCalled data; FuncCalled validated] /\
    store w' = snd (func validated s).
Proof.
  intros H Hf. rewrite (withValidation_success schema func data w validated s H).
  exists (VPromise (Rejected e)). eexists. split.
  - destruct Hf as [Hf|Hf]; rewrite Hf; reflexivity.
  - simpl. split; [reflexivity|].
    split; [rewrite <- app_assoc; reflexivity | reflexivity].
Qed.

(** X6.  The order of calls: every invocation consults the schema exactly
    once, first, on the raw input; [func] is called after it, once, exactly
    when [safeParse] reported success, and otherwise the state is the one
    [safeParse] left. *)
Theorem withValidation_call_protocol data w :
  (exists validated s,
     safeParse schema data (store w) = (Normal (SafeParseSuccess validated), s) /\
     calls (snd (withValidation schema func data w))
       = calls w ++ [SafeParseCalled data; FuncCalled validated])
  \/
  ((forall validated s,
      safeParse schema data (store w) <> (Normal (SafeParseSuccess validated), s)) /\
   calls (snd (withValidation schema func data w)) = calls w ++ [SafeParseCalled data] /\
   store (snd (withValidation schema func data w)) = snd (safeParse schema data (store w))).
Proof.
  destruct (safeParse schema data (store w)) as [[[validated|error]|e] s] eqn:H.
  - left. exists validated, s. split; [reflexivity|].
    rewrite (withValidation_success schema func data w validated s H). simpl.
    rewrite <- app_assoc. reflexivity.
  - right. rewrite (withValidation_failure schema func data w error s H).
    split; [discriminate|]. split; reflexivity.
  - right. rewrite (withValidation_fault schema func data w e s H).
    split; [discriminate|]. split; reflexivity.
Qed.

(** X7.  The value built on a validation failure has two own properties
    and no more, [isValidationError], which is [true], and [errors], which is
    the validator's issue array as it was reported; the wrapper checks
    nothing itself, so the value has the [ValidationError] type precisely
    when every reported issue is a [ZodIssue]. *)
Theorem withValidation_error_shape (is_ZodIssue : value -> bool) data w error s :
  safeParse schema data (store w) = (Normal (SafeParseError error), s) ->
  exists props,
    fst (withValidation schema func data w) = Normal (VPromise (Fulfilled (VObj props))) /\
    map fst props = ["isValidationError"; "errors"] /\
    lookup_prop "isValidationError" props = Some (VBool true) /\
    lookup_prop "errors" props = Some (VArr (issues error)) /\
    ValidationError_type is_ZodIssue (VObj props) = forallb is_ZodIssue (issues error).
Proof.
  intros H. rewrite (withValidation_failure schema func data w error s H).
  eexists. split; [reflexivity|]. repeat split.
Qed.

(** X8.  Unless [safeParse] reports success, the outcome of the wrapped
    call, result and state, is the same for every target operation. *)
Theorem withValidation_func_irrelevant data w :
  (forall validated s,
     safeParse schema data (store w) <> (Normal (SafeParseSuccess validated), s)) ->
  forall func' : @F St,
    withValidation schema func' data w = withValidation schema func data w.
Proof.
  intros Hn func'.
  destruct (safeParse schema data (store w)) as [[[validated|error]|e] s] eqn:H.
  - exfalso. exact (Hn validated s eq_refl).
  - rewrite (withValidation_failure schema func data w error s H).
    apply withValidation_failure. exact H.
  - rewrite (withValidation_fault schema func data w e s H).
    apply withValidation_fault. exact H.
Qed.

End WithValidationMore.

(* ===================================================================== *)
(** ** The README's handler *)
(* ===================================================================== *)

Section PageTsxFacts.
Context {St : Type}.
Variable console_log : value -> St -> St.
Variable schema : ZodSchema St.
Variable func : @F St.
Implicit Types (w : world St) (s : St).

Ltac run_handler E :=
  unfold handleSave, async_await; rewrite E; simpl;
  unfold async, bind, lift, log, ret.

(** X9.  [handleSave] on a rejected input: the handler logs the
    validator's issue list, returns early, and its promise is fulfilled;
    the target operation is not called and the success message is not
    logged. *)
Theorem handleSave_invalid myString w error s :
  safeParse schema (VObj [("name", VStr myString)]) (store w)
    = (Normal (SafeParseError error), s) ->
  handleSave console_log (withValidation schema func) myString w =
  (Normal (VPromise (Fulfilled VUndefined)),
   Build_world (calls w ++ [SafeParseCalled (VObj [("name", VStr myString)])])
               (console_log (VArr (issues error)) s)).
Proof.
  intros H.
  run_handler (withValidation_failure schema func _ w error s H).
  reflexivity.
Qed.

(** X10.  [handleSave] on an accepted input whose result does not carry
    the flag: the target operation runs once and the handler logs the
    success message, also when the result is [null], [undefined] or another
    falsy value that the predicate returns as it is. *)
Theorem handleSave_valid myString w validated s r s' v :
  safeParse schema (VObj [("name", VStr myString)]) (store w)
    = (Normal (SafeParseSuccess validated), s) ->
  func validated s = (Normal r, s') ->
  await r = Some (Normal v) ->
  get v "isValidationError" <> Normal (VBool true) ->
  handleSave console_log (withValidation schema func) myString w =
  (Normal (VPromise (Fulfilled VUndefined)),
   Build_world (calls w ++ [SafeParseCalled (VObj [("name", VStr myString)]);
                            FuncCalled validated])
               (console_log (VStr "We passed correct data!") s')).
Proof.
  intros H Hf Ha Hn.
  assert (E := withValidation_success schema func _ w validated s H).
  rewrite Hf in E. simpl in E.
  unfold handleSave, async_await. rewrite E, await_resolve, Ha.
  unfold async, bind.
  destruct (isValidationError_unflagged v
              (Build_world ((calls w ++ [SafeParseCalled (VObj [("name", VStr myString)])])
                              ++ [FuncCalled validated]) s') Hn) as (c & Hc & Htc).
  rewrite Hc, Htc. unfold log, ret. simpl. rewrite <- app_assoc. reflexivity.
Qed.

(** X11.  [handleSave] does not handle faults: when the validator throws,
    the handler's own promise is rejected with that fault and nothing is
    logged. *)
Theorem handleSave_validator_fault myString w e s :
  safeParse schema (VObj [("name", VStr myString)]) (store w) = (Throw e, s) ->
  handleSave console_log (withValidation schema func) myString w =
  (Normal (VPromise (Rejected e)),
   Build_world (calls w ++ [SafeParseCalled (VObj [("name", VStr myString)])]) s).
Proof.
  intros H.
  run_handler (withValidation_fault schema func _ w e s H).
  reflexivity.
Qed.

End PageTsxFacts.

(* ===================================================================== *)
(** ** Closed instances for the dispatcher and the handler *)
(* ===================================================================== *)

Lemma withValidation_result_not_classified_witness :
  exists p w',
    withValidation Readme.myServerActionSchema Readme.myServerAction
                   Readme.long_input Readme.w0 = (Normal p, w') /\
    await p = Some (Normal (VBool true)) /\
    forall (W : Type) (u : W),
      exists c, isValidationError (VBool true) u = (Normal c, u) /\ truthy c = false.
Proof.
  apply (withValidation_result_not_classified
           Readme.myServerActionSchema Readme.myServerAction
           Readme.long_input Readme.w0
           (VObj [("name", VStr "abcd")]) []
           (VPromise (Fulfilled (VBool true))) [VObj [("name", VStr "abcd")]]
           (VBool true)).
  - reflexivity.
  - reflexivity.
  - reflexivity.
  - simpl. discriminate.
Defined.

Lemma withValidation_result_misclassified_witness :
  exists p w',
    withValidation Readme.myServerActionSchema Page.flaggedAction
                   Readme.long_input Readme.w0 = (Normal p, w') /\
    await p = Some (Normal (VObj [("isValidationError", VBool true); ("errors", VArr [])])) /\
    func_calls (calls w') = func_calls (calls Readme.w0) ++ [VObj [("name", VStr "abcd")]] /\
    forall (W : Type) (u : W),
      isValidationError (VObj [("isValidationError", VBool true); ("errors", VArr [])]) u
        = (Normal (VBool true), u).
Proof.
  apply (withValidation_result_misclassified
           Readme.myServerActionSchema Page.flaggedAction
           Readme.long_input Readme.w0
           (VObj [("name", VStr "abcd")]) []
           (VObj [("isValidationError", VBool true); ("errors", VArr [])]) []
           (VObj [("isValidationError", VBool true); ("errors", VArr [])]));
    reflexivity.
Defined.

Lemma withValidation_func_fault_witness :
  exists p w',
    withValidation Readme.myServerActionSchema Page.failingAction
                   Readme.long_input Readme.w0 = (Normal p, w') /\
    await p = Some (Throw Page.action_error) /\
    calls w' = calls Readme.w0 ++
               [SafeParseCalled Readme.long_input;
                FuncCalled (VObj [("name", VStr "abcd")])] /\
    store w' = [VObj [("name", VStr "abcd")]].
Proof.
  apply (withValidation_func_fault
           Readme.myServerActionSchema Page.failingAction
           Readme.long_input Readme.w0
           (VObj [("name", VStr "abcd")]) [] Page.action_error).
  - reflexivity.
  - left. reflexivity.
Defined.

Lemma withValidation_error_shape_witness :
  exists props,
    fst (withValidation Readme.myServerActionSchema Readme.myServerAction
                        Readme.short_input Readme.w0)
      = Normal (VPromise (Fulfilled (VObj props))) /\
    map fst props = ["isValidationError"; "errors"] /\
    lookup_prop "isValidationError" props = Some (VBool true) /\
    lookup_prop "errors" props = Some (VArr [Readme.too_small]) /\
    ValidationError_type Page.is_issue (VObj props) = true.
Proof.
  apply (withValidation_error_shape
           Readme.myServerActionSchema Readme.myServerAction Page.is_issue
           Readme.short_input Readme.w0
           {| issues := [Readme.too_small] |} []).
  reflexivity.
Defined.

Lemma withValidation_func_irrelevant_witness :
  withValidation Readme.myServerActionSchema Page.failingAction
                 Readme.short_input Readme.w0
  = withValidation Readme.myServerActionSchema Readme.myServerAction
                   Readme.short_input Readme.w0.
Proof.
  apply (withValidation_func_irrelevant
           Readme.myServerActionSchema Readme.myServerAction
           Readme.short_input Readme.w0).
  intros validated s. simpl. discriminate.
Defined.

Lemma handleSave_invalid_witness :
  handleSave Page.console_log
             (withValidation Readme.myServerActionSchema Readme.myServerAction)
             "abc" Readme.w0
  = (Normal (VPromise (Fulfilled VUndefined)),
     Build_world (calls Readme.w0 ++ [SafeParseCalled (VObj [("name", VStr "abc")])])
                 (Page.console_log (VArr [Readme.too_small]) [])).
Proof.
  apply (handleSave_invalid Page.console_log
           Readme.myServerActionSchema Readme.myServerAction
           "abc" Readme.w0 {| issues := [Readme.too_small] |} []).
  reflexivity.
Defined.

Lemma handleSave_valid_witness :
  handleSave Page.console_log
             (withValidation Readme.myServerActionSchema Readme.myServerAction)
             "abcd" Readme.w0
  = (Normal (VPromise (Fulfilled VUndefined)),
     Build_world (calls Readme.w0 ++
                  [SafeParseCalled (VObj [("name", VStr "abcd")]);
                   FuncCalled (VObj [("name", VStr "abcd")])])
                 (Page.console_log (VStr "We passed correct data!")
                                   [VObj [("name", VStr "abcd")]])).
Proof.
  apply (handleSave_valid Page.console_log
           Readme.myServerActionSchema Readme.myServerAction
           "abcd" Readme.w0
           (VObj [("name", VStr "abcd")]) []
           (VPromise (Fulfilled (VBool true))) [VObj [("name", VStr "abcd")]]
           (VBool true)).
  - reflexivity.
  - reflexivity.
  - reflexivity.
  - simpl. discriminate.
Defined.

Lemma handleSave_validator_fault_witness :
  handleSave Page.console_log
             (withValidation Readme.brokenSchema Readme.myServerAction)
             "abcd" Readme.w0
  = (Normal (VPromise (Rejected Readme.async_refinement_error)),
     Build_world (calls Readme.w0 ++ [SafeParseCalled (VObj [("name", VStr "abcd")])]) []).
Proof.
  apply (handleSave_validator_fault Page.console_log
           Readme.brokenSchema Readme.myServerAction
           "abcd" Readme.w0 Readme.async_refinement_error []).
  reflexivity.
Defined.

(* ===================================================================== *)
(** ** The error predicate on every [obj: any] *)
(* ===================================================================== *)

Section AnyFacts.
Context {H : Type}.
Implicit Types (obj : Any.any H) (v : value) (h : H).

(** On a data value the two embeddings of the predicate agree. *)
Lemma isValidationError_data v h :
  Any.isValidationError (Any.Data v) h =
  (match fst (isValidationError v h) with
   | Normal r => Normal (Any.Data r)
   | Throw e => Throw e
   end, h).
Proof.
  destruct (truthy v) eqn:Ht.
  - destruct (isValidationError_truthy v h Ht) as (flag & Hg & He).
    rewrite He. simpl.
    unfold Any.isValidationError, Any.js_and_any, Any.truthy_any, Any.get_any, bind, lift, ret.
    rewrite Ht, Hg. reflexivity.
  - rewrite (isValidationError_falsy v h Ht). simpl.
    unfold Any.isValidationError, Any.js_and_any, Any.truthy_any, ret.
    rewrite Ht. reflexivity.
Qed.

(** On an object whose reads run code, the predicate does one read of
    [isValidationError] and compares what it returned with [true]. *)
Lemma isValidationError_exotic (read : string -> M H value) h :
  Any.isValidationError (Any.Exotic read) h =
  (match fst (read "isValidationError" h) with
   | Normal flag => Normal (Any.Data (VBool (strict_equals_bool flag true)))
   | Throw e => Throw e
   end, snd (read "isValidationError" h)).
Proof.
  unfold Any.isValidationError, Any.js_and_any, Any.truthy_any, Any.get_any, bind, ret.
  destruct (read "isValidationError" h) as [[flag|e] h']; reflexivity.
Qed.

(** C4, as the code has it.  On every data value, [undefined], [null],
    numbers and arrays included, [isValidationError] completes normally and
    leaves the state as it found it.  On an object whose property reads run
    code, it throws exactly what the read of [isValidationError] throws, and
    the state it leaves is the one that read left: the predicate adds no
    fault and no effect of its own. *)
Theorem isValidationError_raises_only_from_read :
  (forall v h, exists r, Any.isValidationError (Any.Data v) h = (Normal r, h))
  /\
  (forall (read : string -> M H value) h,
     snd (Any.isValidationError (Any.Exotic read) h) = snd (read "isValidationError" h) /\
     forall e,
       fst (Any.isValidationError (Any.Exotic read) h) = Throw e <->
       fst (read "isValidationError" h) = Throw e).
Proof.
  split.
  - intros v h. rewrite isValidationError_data.
    destruct (isValidationError_total H v h) as [r Hr]. rewrite Hr. simpl. eauto.
  - intros read h. rewrite isValidationError_exotic. simpl. split; [reflexivity|].
    intros e. destruct (fst (read "isValidationError" h)) as [flag|e'].
    + split; intros E; discriminate E.
    + split; intros E; injection E as E; rewrite E; reflexivity.
Qed.

(** C8, as the code has it.  On every data value the result is a function
    of the argument alone: it is the same in any two states, and the state
    is left as it was.  On any argument the state matters only through the
    read of [isValidationError]: two calls whose reads give the same
    outcome give the same result. *)
Theorem isValidationError_depends_only_on_read :
  (forall v h1 h2,
     fst (Any.isValidationError (Any.Data v) h1)
       = fst (Any.isValidationError (Any.Data v) h2) /\
     snd (Any.isValidationError (Any.Data v) h1) = h1)
  /\
  (forall obj h1 h2,
     fst (Any.get_any obj "isValidationError" h1)
       = fst (Any.get_any obj "isValidationError" h2) ->
     fst (Any.isValidationError obj h1) = fst (Any.isValidationError obj h2)).
Proof.
  split.
  - intros v h1 h2. rewrite !isValidationError_data. simpl. split; [|reflexivity].
    destruct (isValidationError_deterministic H H v h1 h2) as [E _].
    rewrite E. reflexivity.
  - intros [v|read] h1 h2 E.
    + rewrite !isValidationError_data. simpl.
      destruct (isValidationError_deterministic H H v h1 h2) as [E' _].
      rewrite E'. reflexivity.
    + rewrite !isValidationError_exotic. simpl. simpl in E.
      rewrite E. reflexivity.
Qed.

End AnyFacts.

(** An accessor that throws makes the predicate throw, and an accessor
    that writes to the state makes its evaluation change the state. *)
Lemma isValidationError_getter_raises :
  Any.isValidationError Any.throwing_getter 0 = (Throw Any.getter_error, 0) /\
  snd (Any.isValidationError Any.counting_getter 0) = 1.
Proof. split; reflexivity. Qed.

(** Two calls in a row on the same object, the second in the state the
    first left, answer [true] and then [false]. *)
Lemma isValidationError_getter_not_deterministic :
  fst (Any.isValidationError Any.counting_getter 0)
    = Normal (Any.Data (VBool true)) /\
  fst (Any.isValidationError Any.counting_getter
         (snd (Any.isValidationError Any.counting_getter 0)))
    = Normal (Any.Data (VBool false)) /\
  fst (Any.isValidationError Any.counting_getter 0)
    <> fst (Any.isValidationError Any.counting_getter
              (snd (Any.isValidationError Any.counting_getter 0))).
Proof.
  split; [reflexivity|]. split; [reflexivity|].
  simpl. discriminate.
Qed.

Lemma isValidationError_depends_only_on_read_witness :
  fst (Any.isValidationError Any.counting_getter 1)
    = fst (Any.isValidationError Any.counting_getter 2).
Proof.
  apply (proj2 (@isValidationError_depends_only_on_read nat) Any.counting_getter 1 2).
  reflexivity.
Defined.
